(** * MXSEC demo API ([api/main.py]): model and verified properties

    The program is a FastAPI application whose handlers read three
    module-level fixtures ([FAKE_USER], [FAKE_WEBSITES], [FAKE_ALERTS]) that
    are built once, when the module is imported.  The embedding below keeps
    that shape:

    - the pydantic models are records, one module per class;
    - importing the module is a computation that reads the wall clock
      ([datetime.utcnow()]) once per fixture entry;
    - a handler is a computation over the module globals that either
      returns a value or raises an [HTTPException];
    - the application is the routing function [app], and a process serving
      a sequence of requests is [serve];
    - the framework validates a request before the handler runs
      ([EmailStr] for the login email, [int] for [limit]); [post_login] and
      [http] are the routes with that validation in front. *)

From Stdlib Require Import ZArith List String Ascii Bool Lia SpecFloat Sorted.
Import ListNotations.

Open Scope string_scope.
Open Scope Z_scope.
Open Scope list_scope.

(* ------------------------------------------------------------------ *)
(** ** Time: [datetime] and [timedelta] *)

(** A naive UTC [datetime], as the number of microseconds since the epoch
    (the resolution of Python's [datetime]). *)
Definition datetime := Z.

(** A [timedelta], normalised to microseconds. *)
Definition timedelta_t := Z.

(** [timedelta(days=d, hours=h, minutes=m)]. *)
Definition timedelta (days hours minutes : Z) : timedelta_t :=
  (((days * 24 + hours) * 60 + minutes) * 60) * 1000000.

(** [dt - td] on a [datetime] and a [timedelta]. *)
Definition datetime_sub (dt : datetime) (td : timedelta_t) : datetime := dt - td.

(* ------------------------------------------------------------------ *)
(** ** Computations that thread a state and may raise *)

(** [raise HTTPException(status_code=..., detail=...)]. *)
Inductive HTTPException : Type :=
  mkHTTPException (status_code : Z) (detail : string).

Inductive outcome (A : Type) : Type :=
| Returned (a : A)
| Raised (e : HTTPException).
Arguments Returned {A} a.
Arguments Raised {A} e.

Definition M (S A : Type) : Type := S -> outcome A * S.

Definition ret {S A} (a : A) : M S A := fun s => (Returned a, s).

Definition bind {S A B} (c : M S A) (k : A -> M S B) : M S B :=
  fun s =>
    match c s with
    | (Returned a, s') => k a s'
    | (Raised e, s') => (Raised e, s')
    end.

Definition raise {S A} (e : HTTPException) : M S A := fun s => (Raised e, s).

(** Reading the state (a handler looking up a module global). *)
Definition get {S} : M S S := fun s => (Returned s, s).

Notation "x <- c ;; k" := (bind c (fun x => k))
  (at level 61, c at next level, right associativity).

(* ------------------------------------------------------------------ *)
(** ** MODELS *)

Module User.
Record t : Type := mk { id : string; email : string; plan : string }.
End User.

(** A [LoginRequest] as the handler receives it: [email] holds the address
    that the validation of [EmailStr] yields, not the text the caller sent
    (see [post_login]). *)
Module LoginRequest.
Record t : Type := mk { email : string; password : string }.
End LoginRequest.

(** The values a model's field can hold once it is turned into a
    dictionary for the JSON response. *)
Inductive value : Type :=
| VInt (z : Z)
| VFloat (f : spec_float)
| VStr (s : string)
| VDatetime (d : datetime)
| VNone.

Definition of_optional {A} (inj : A -> value) (o : option A) : value :=
  match o with
  | Some a => inj a
  | None => VNone
  end.

Module OverviewResponse.
Record t : Type := mk {
  overall_score : Z;
  score_change : Z;
  attacks_last_24h : Z;
  attacks_change_percent : Z;
  uptime_percent : spec_float;
  uptime_note : string;
  targets_total : Z;
  targets_note : string
}.

(** The declared fields, in declaration order. *)
Definition fields : list string :=
  ["overall_score"; "score_change"; "attacks_last_24h";
   "attacks_change_percent"; "uptime_percent"; "uptime_note";
   "targets_total"; "targets_note"].

(** The model as a dictionary: one entry per declared field. *)
Definition dict (o : t) : list (string * value) :=
  [("overall_score", VInt (overall_score o));
   ("score_change", VInt (score_change o));
   ("attacks_last_24h", VInt (attacks_last_24h o));
   ("attacks_change_percent", VInt (attacks_change_percent o));
   ("uptime_percent", VFloat (uptime_percent o));
   ("uptime_note", VStr (uptime_note o));
   ("targets_total", VInt (targets_total o));
   ("targets_note", VStr (targets_note o))].
End OverviewResponse.

Module Website.
Record t : Type := mk {
  id : string;
  domain : string;
  status : string;
  last_score : option Z;
  last_scan_at : option datetime;
  risk_level : option string
}.

Definition dict (w : t) : list (string * value) :=
  [("id", VStr (id w));
   ("domain", VStr (domain w));
   ("status", VStr (status w));
   ("last_score", of_optional VInt (last_score w));
   ("last_scan_at", of_optional VDatetime (last_scan_at w));
   ("risk_level", of_optional VStr (risk_level w))].
End Website.

Module Alert.
Record t : Type := mk {
  id : string;
  type : string;
  severity : string;
  message : string;
  target_type : string;
  target_label : string;
  created_at : datetime;
  tag : string
}.
End Alert.

(** Lookup of a key in a dictionary (first binding wins). *)
Fixpoint dict_get (k : string) (d : list (string * value)) : option value :=
  match d with
  | [] => None
  | (k', v) :: d' => if String.eqb k k' then Some v else dict_get k d'
  end.

(* ------------------------------------------------------------------ *)
(** ** FAKE DATA (Demo) *)

(** The module globals that the handlers read. *)
Record Globals : Type := mkGlobals {
  FAKE_USER : User.t;
  FAKE_WEBSITES : list Website.t;
  FAKE_ALERTS : list Alert.t
}.

Section ModuleLoad.

(** [clock n] is what the [n]-th call of [datetime.utcnow()] made by this
    process returns (counting from 0).  The wall clock is not monotonic and
    nothing bounds the time between two readings, so the readings are
    arbitrary.  The offsets subtracted below are at most one day, which
    keeps every result a [datetime] for any reading later than 2 January
    of year 1. *)
Variable clock : nat -> datetime.

(** Module import threads the number of clock readings made so far. *)
Definition utcnow : M nat datetime := fun n => (Returned (clock n), S n).

Definition build_user : M nat User.t :=
  ret (User.mk "u_123" "mxdev@example.de" "pro").

Definition build_websites : M nat (list Website.t) :=
  t1 <- utcnow ;;
  let w1 := Website.mk "w_1" "mxdev.de" "online" (Some 93)
              (Some (datetime_sub t1 (timedelta 0 0 20))) (Some "low") in
  t2 <- utcnow ;;
  let w2 := Website.mk "w_2" "shop.mxdev.de" "online" (Some 81)
              (Some (datetime_sub t2 (timedelta 0 1 30))) (Some "medium") in
  t3 <- utcnow ;;
  let w3 := Website.mk "w_3" "demo.mxsec.app" "reachable" (Some 67)
              (Some (datetime_sub t3 (timedelta 0 12 0))) (Some "high") in
  t4 <- utcnow ;;
  let w4 := Website.mk "w_4" "kundenprojekt.de" "ssl_error" (Some 54)
              (Some (datetime_sub t4 (timedelta 1 0 0))) (Some "critical") in
  ret [w1; w2; w3; w4].

Definition build_alerts : M nat (list Alert.t) :=
  t1 <- utcnow ;;
  let a1 := Alert.mk "a_1" "cve" "critical"
              "Kritische Schwachstelle gefunden" "website"
              "kundenprojekt.de" (datetime_sub t1 (timedelta 0 0 5)) "CVE" in
  t2 <- utcnow ;;
  let a2 := Alert.mk "a_2" "ssh" "warn"
              "Mehrere fehlerhafte SSH Logins" "server"
              "mc-prod-01" (datetime_sub t2 (timedelta 0 0 12)) "SSH" in
  t3 <- utcnow ;;
  let a3 := Alert.mk "a_3" "info" "info"
              "Neue Domain hinzugefügt" "website"
              "demo.mxsec.app" (datetime_sub t3 (timedelta 0 0 34)) "Info" in
  t4 <- utcnow ;;
  let a4 := Alert.mk "a_4" "autofix" "info"
              "AutoFix angewendet (Firewall)" "server"
              "mc-prod-01" (datetime_sub t4 (timedelta 0 1 0)) "AutoFix" in
  ret [a1; a2; a3; a4].

(** The three assignments, in source order. *)
Definition module_init : M nat Globals :=
  u <- build_user ;;
  ws <- build_websites ;;
  als <- build_alerts ;;
  ret (mkGlobals u ws als).

(** The globals as they stand once the module is imported; the import
    cannot raise, so the second branch is never taken. *)
Definition globals : Globals :=
  match module_init 0%nat with
  | (Returned g, _) => g
  | (Raised _, _) => mkGlobals (User.mk "" "" "") [] []
  end.

End ModuleLoad.

(* ------------------------------------------------------------------ *)
(** ** List slicing *)

(** The upper bound of [xs[:stop]] once it is adjusted to a list of length
    [len]: a negative bound counts from the end and is clamped at 0, a
    bound past the end is clamped at [len]. *)
Definition slice_stop (len stop : Z) : Z :=
  if stop <? 0 then
    (if stop + len <? 0 then 0 else stop + len)
  else if len <=? stop then len
  else stop.

(** [xs[:stop]]: a new list holding the entries of [xs] at positions
    [0 .. slice_stop - 1]. *)
Definition slice_upto {A} (xs : list A) (stop : Z) : list A :=
  firstn (Z.to_nat (slice_stop (Z.of_nat (List.length xs)) stop)) xs.

(* ------------------------------------------------------------------ *)
(** ** Handlers *)

Definition Handler (A : Type) : Type := M Globals A.

(** AUTH (FAKE).  [payload] is the request body after validation. *)
Definition login (payload : LoginRequest.t) : Handler User.t :=
  g <- get ;;
  if negb (String.eqb (LoginRequest.email payload) (User.email (FAKE_USER g)))
  then raise (mkHTTPException 401 "Ungültige Zugangsdaten")
  else ret (FAKE_USER g).

Definition get_me : Handler User.t :=
  g <- get ;;
  ret (FAKE_USER g).

(** The binary64 value of the literal [99.96]. *)
Definition float_99_96 : spec_float := S754_finite false 7034059667999293 (-46).

(** OVERVIEW *)
Definition get_overview : Handler OverviewResponse.t :=
  ret (OverviewResponse.mk
         89 4 432 18 float_99_96
         "1 kurzer Ausfall bei shop.mxdev.de (3 Minuten)."
         4
         "3 Websites, 1 Server. Grenze deines Pro-Plans.").

(** WEBSITES *)
Definition list_websites : Handler (list Website.t) :=
  g <- get ;;
  ret (FAKE_WEBSITES g).

(** ALERTS *)
Definition list_alerts (limit : Z) : Handler (list Alert.t) :=
  g <- get ;;
  ret (slice_upto (FAKE_ALERTS g) limit).

(** Root *)
Definition root : Handler (list (string * string)) :=
  ret [("status", "ok"); ("service", "mxsec-api")].

(* ------------------------------------------------------------------ *)
(** ** The application *)

(** The routes.  [GetAlerts None] is a request without the [limit] query
    parameter. *)
Inductive Request : Type :=
| PostLogin (payload : LoginRequest.t)
| GetMe
| GetOverview
| GetWebsites
| GetAlerts (limit : option Z)
| GetRoot.

Inductive Body : Type :=
| BUser (u : User.t)
| BOverview (o : OverviewResponse.t)
| BWebsites (ws : list Website.t)
| BAlerts (als : list Alert.t)
| BRoot (d : list (string * string)).

(** The default of [list_alerts(limit: int = 10)]. *)
Definition limit_default : Z := 10.

Definition app (r : Request) : Handler Body :=
  match r with
  | PostLogin payload => u <- login payload ;; ret (BUser u)
  | GetMe => u <- get_me ;; ret (BUser u)
  | GetOverview => o <- get_overview ;; ret (BOverview o)
  | GetWebsites => ws <- list_websites ;; ret (BWebsites ws)
  | GetAlerts limit =>
      als <- list_alerts (match limit with Some l => l | None => limit_default end) ;;
      ret (BAlerts als)
  | GetRoot => d <- root ;; ret (BRoot d)
  end.

(** The HTTP status of a handler's outcome: 200 for a returned value, the
    exception's [status_code] otherwise. *)
Definition http_status {A} (o : outcome A) : Z :=
  match o with
  | Returned _ => 200
  | Raised (mkHTTPException code _) => code
  end.

(** A process serving requests one after the other: the outcomes, in
    order, and the globals afterwards. *)
Fixpoint serve (rs : list Request) (g : Globals) : list (outcome Body) * Globals :=
  match rs with
  | [] => ([], g)
  | r :: rs' =>
      let '(o, g') := app r g in
      let '(os, g'') := serve rs' g' in
      (o :: os, g'')
  end.

(* ------------------------------------------------------------------ *)
(** ** Predicates used by the properties *)

(** Host-name syntax: at least two dot-separated labels, each of 1 to 63
    letters, digits or hyphens, not starting or ending with a hyphen; at
    most 253 characters in all. *)
Definition is_ldh (c : ascii) : bool :=
  let n := nat_of_ascii c in
  ((48 <=? n) && (n <=? 57) || (65 <=? n) && (n <=? 90)
   || (97 <=? n) && (n <=? 122) || (n =? 45))%nat.

Fixpoint split_dots (s : string) : list string :=
  match s with
  | EmptyString => [EmptyString]
  | String c s' =>
      if Ascii.eqb c "." then EmptyString :: split_dots s'
      else match split_dots s' with
           | [] => [String c EmptyString]
           | l :: ls => String c l :: ls
           end
  end.

Fixpoint all_chars (p : ascii -> bool) (s : string) : bool :=
  match s with
  | EmptyString => true
  | String c s' => p c && all_chars p s'
  end.

Fixpoint last_char (s : string) : option ascii :=
  match s with
  | EmptyString => None
  | String c EmptyString => Some c
  | String _ s' => last_char s'
  end.

Definition not_hyphen (o : option ascii) : bool :=
  match o with
  | Some c => negb (Ascii.eqb c "-")
  | None => true
  end.

Definition valid_label (l : string) : bool :=
  ((1 <=? String.length l) && (String.length l <=? 63))%nat
  && all_chars is_ldh l
  && not_hyphen (String.get 0 l)
  && not_hyphen (last_char l).

Definition valid_domain (s : string) : bool :=
  (String.length s <=? 253)%nat
  && (2 <=? List.length (split_dots s))%nat
  && forallb valid_label (split_dots s).

(** The status values the data model documents by name. *)
Definition documented_statuses : list string := ["online"; "reachable"; "ssl_error"].

Definition is_present {A} (o : option A) : Prop := o <> None.

(** [last_score] and [risk_level] are present together or absent together. *)
Definition paired_optional (w : Website.t) : Prop :=
  is_present (Website.last_score w) <-> is_present (Website.risk_level w).

(** Each entry is strictly newer than all the entries after it. *)
Definition newest_first (als : list Alert.t) : Prop :=
  StronglySorted (fun a b => Alert.created_at b < Alert.created_at a) als.

(** The invariants of the fixture data. *)
Record fixture_invariant (g : Globals) : Prop := {
  inv_user_id : NoDup [User.id (FAKE_USER g)];
  inv_website_ids : NoDup (map Website.id (FAKE_WEBSITES g));
  inv_alert_ids : NoDup (map Alert.id (FAKE_ALERTS g));
  inv_paired : Forall paired_optional (FAKE_WEBSITES g);
  inv_newest_first : newest_first (FAKE_ALERTS g)
}.

(** Module import is quick: no clock reading taken while the module is
    imported is seven minutes or more after an earlier one. *)
Definition quick_import (clock : nat -> datetime) : Prop :=
  forall i j : nat, (i <= j)%nat -> (j < 8)%nat ->
    clock j - clock i < timedelta 0 0 7.

(** The clock readings taken for the alerts (the fifth to the eighth of the
    import) are close: the one for [a_2] is less than 7 minutes after the
    one for [a_1], the one for [a_3] less than 22 minutes after the one for
    [a_2], the one for [a_4] less than 26 minutes after the one for [a_3]
    (the differences of the alerts' offsets 5, 12, 34 and 60 minutes). *)
Definition alert_readings_close (clock : nat -> datetime) : Prop :=
  clock 5%nat - clock 4%nat < timedelta 0 0 7
  /\ clock 6%nat - clock 5%nat < timedelta 0 0 22
  /\ clock 7%nat - clock 6%nat < timedelta 0 0 26.

(** A clock that advances by one microsecond per reading, starting at
    2023-11-14 22:13:20 UTC. *)
Definition ticking_clock (n : nat) : datetime := 1700000000000000 + Z.of_nat n.

(** The same clock in a process that is suspended for ten minutes (or
    whose wall clock is stepped forward by ten minutes) after [a_1] is
    built and before [a_2] is. *)
Definition stalled_clock (n : nat) : datetime :=
  ticking_clock n + (if (5 <=? n)%nat then timedelta 0 0 10 else 0).

(** [xs] is an initial segment of [ys]. *)
Definition prefix_of {A} (xs ys : list A) : Prop := exists rest, ys = xs ++ rest.

(** [xs] is a final segment of [ys]. *)
Definition suffix_of {A} (xs ys : list A) : Prop := exists front, ys = front ++ xs.


(* ------------------------------------------------------------------ *)
(** ** Predicates used by the further properties *)

(** The clock does not run backwards while the module is imported. *)
Definition monotone_import (clock : nat -> datetime) : Prop :=
  forall i j : nat, (i <= j)%nat -> (j < 8)%nat -> clock i <= clock j.

(** Website [a] was scanned strictly later than website [b]; a website
    without a scan time is in no such relation. *)
Definition scanned_after (a b : Website.t) : Prop :=
  match Website.last_scan_at a, Website.last_scan_at b with
  | Some ta, Some tb => tb < ta
  | _, _ => False
  end.

(** Each website was scanned later than all the websites after it. *)
Definition most_recent_scan_first (ws : list Website.t) : Prop :=
  StronglySorted scanned_after ws.

(** The clock readings taken for the websites (the first four of the
    import) are close: the gaps are below the differences of the websites'
    offsets 20 minutes, 1 h 30, 12 h and 1 day. *)
Definition website_readings_close (clock : nat -> datetime) : Prop :=
  clock 1%nat - clock 0%nat < timedelta 0 1 10
  /\ clock 2%nat - clock 1%nat < timedelta 0 10 30
  /\ clock 3%nat - clock 2%nat < timedelta 0 12 0.

(** Every timestamp the fixtures hold: the websites' scan times, then the
    alerts' creation times. *)
Definition fixture_timestamps (g : Globals) : list datetime :=
  flat_map (fun w => match Website.last_scan_at w with
                     | Some t => [t]
                     | None => []
                     end) (FAKE_WEBSITES g)
  ++ map Alert.created_at (FAKE_ALERTS g).

Definition is_raised {A} (o : outcome A) : bool :=
  match o with
  | Returned _ => false
  | Raised _ => true
  end.

(** The number of alerts, as the integer that slicing compares with. *)
Definition alert_count (g : Globals) : Z := Z.of_nat (List.length (FAKE_ALERTS g)).

(* ------------------------------------------------------------------ *)
(** ** Request validation *)

(** What a route answers.  The framework validates a request before it
    calls the handler: when validation fails the answer is 422 and the
    handler does not run; when the handler raises, the answer carries the
    exception's status and detail; otherwise it is 200 with the value. *)
Inductive reply (A : Type) : Type :=
| Reply200 (a : A)
| ReplyError (e : HTTPException)
| Reply422.
Arguments Reply200 {A} a.
Arguments ReplyError {A} e.
Arguments Reply422 {A}.

Definition reply_of_outcome {A} (o : outcome A) : reply A :=
  match o with
  | Returned a => Reply200 a
  | Raised e => ReplyError e
  end.

Definition reply_status {A} (r : reply A) : Z :=
  match r with
  | Reply200 _ => 200
  | ReplyError (mkHTTPException code _) => code
  | Reply422 => 422
  end.

(** The login route as a caller sees it.  [LoginRequest] declares
    [email: EmailStr], so the body's email goes through the validation of
    [EmailStr], which rejects it or yields the normalised address that
    becomes [payload.email]; [password: str] keeps the string as it is.
    [validate_email] is that validation: [None] when it rejects. *)
Definition post_login (validate_email : string -> option string)
    (email password : string) : Globals -> reply User.t * Globals :=
  fun g =>
    match validate_email email with
    | None => (Reply422, g)
    | Some e =>
        let '(o, g') := login (LoginRequest.mk e password) g in
        (reply_of_outcome o, g')
    end.

(** [EmailStr] on ASCII input, after pydantic 2 ([validate_email]) and the
    default rules of email-validator 2 without the deliverability check:

    - an input of more than 2048 characters is rejected;
    - an input of the form [Name <addr>], [<addr>] or a quoted name
      followed by [<addr>] is replaced by [addr];
    - blanks around the address are stripped;
    - the address is split at its first [@]; the local part is 1 to 64
      characters, dot-separated non-empty runs of letters, digits and
      the specials of [is_atext]; the domain is lower-cased and must be a
      host name ([valid_domain]) whose last character is a letter, with no
      label that has hyphens in its third and fourth place and not under
      a special-use top-level name; the whole is at most 254 characters;
    - the result is the local part as given, [@], the lower-cased domain.

    Input with a non-ASCII character, which the library treats by rules of
    its own (Unicode normalisation, internationalised domains), is outside
    this model and is rejected here. *)
Module EmailStr.

Definition is_space (c : ascii) : bool :=
  let n := nat_of_ascii c in
  ((9 <=? n) && (n <=? 13) || (28 <=? n) && (n <=? 32))%nat.

Definition is_ascii (c : ascii) : bool := (nat_of_ascii c <? 128)%nat.

Fixpoint mem_char (c : ascii) (s : string) : bool :=
  match s with
  | EmptyString => false
  | String d s' => Ascii.eqb c d || mem_char c s'
  end.

Definition is_alnum (c : ascii) : bool :=
  let n := nat_of_ascii c in
  ((48 <=? n) && (n <=? 57) || (65 <=? n) && (n <=? 90)
   || (97 <=? n) && (n <=? 122))%nat.

Definition is_alpha (c : ascii) : bool :=
  let n := nat_of_ascii c in
  ((65 <=? n) && (n <=? 90) || (97 <=? n) && (n <=? 122))%nat.

(** The characters of an atom, which are also the characters of a display
    name. *)
Definition is_atext (c : ascii) : bool :=
  is_alnum c || mem_char c "!#$%&'*+-/=?^_`{|}~".

Definition lower (c : ascii) : ascii :=
  let n := nat_of_ascii c in
  if ((65 <=? n) && (n <=? 90))%nat then ascii_of_nat (n + 32) else c.

Fixpoint lower_string (s : string) : string :=
  match s with
  | EmptyString => EmptyString
  | String c s' => String (lower c) (lower_string s')
  end.

Fixpoint lstrip (s : string) : string :=
  match s with
  | EmptyString => EmptyString
  | String c s' => if is_space c then lstrip s' else s
  end.

Fixpoint rstrip (s : string) : string :=
  match s with
  | EmptyString => EmptyString
  | String c s' =>
      match rstrip s' with
      | EmptyString => if is_space c then EmptyString else String c EmptyString
      | r => String c r
      end
  end.

Definition strip (s : string) : string := lstrip (rstrip s).

(** [s] cut at the first [c]: what is before it and what is after it. *)
Fixpoint split_first (c : ascii) (s : string) : option (string * string) :=
  match s with
  | EmptyString => None
  | String d s' =>
      if Ascii.eqb d c then Some (EmptyString, s')
      else match split_first c s' with
           | Some (before, after) => Some (String d before, after)
           | None => None
           end
  end.

(** [s] without its last character. *)
Fixpoint drop_last (s : string) : string :=
  match s with
  | EmptyString => EmptyString
  | String _ EmptyString => EmptyString
  | String c s' => String c (drop_last s')
  end.

Definition newline : ascii := ascii_of_nat 10.
Definition dquote : ascii := ascii_of_nat 34.

(** [s] is what follows a [<]: up to blanks it ends with [>], and what is
    in between is not empty and holds no newline. *)
Definition bracketed (s : string) : option string :=
  let t := rstrip s in
  let inner := drop_last t in
  match last_char t, inner with
  | Some c, String _ _ =>
      if Ascii.eqb c ">" && negb (mem_char newline inner) then Some inner
      else None
  | _, _ => None
  end.

(** Blanks, then [<addr>]. *)
Definition blanks_bracketed (s : string) : option string :=
  match lstrip s with
  | String c r => if Ascii.eqb c "<" then bracketed r else None
  | EmptyString => None
  end.

(** [s] is what follows the opening quote of a quoted name: the name ends
    at the last quote that is followed by blanks and [<addr>]. *)
Fixpoint quoted_name (nonempty : bool) (s : string) : option string :=
  match s with
  | EmptyString => None
  | String c s' =>
      match quoted_name true s' with
      | Some addr => Some addr
      | None =>
          if Ascii.eqb c dquote && nonempty then blanks_bracketed s' else None
      end
  end.

(** The address inside [Name <addr>], when the input has that form. *)
Definition unwrap (s : string) : option string :=
  match lstrip s with
  | EmptyString => None
  | String c r =>
      if Ascii.eqb c "<" then bracketed r
      else if Ascii.eqb c dquote then quoted_name false r
      else match split_first "<" (String c r) with
           | Some (name, after) =>
               if all_chars (fun d => is_atext d || is_space d) name
               then bracketed after else None
           | None => None
           end
  end.

Definition valid_local (l : string) : bool :=
  ((1 <=? String.length l) && (String.length l <=? 64))%nat
  && forallb (fun atom => (1 <=? String.length atom)%nat && all_chars is_atext atom)
       (split_dots l).

Definition hyphens_3_4 (label : string) : bool :=
  match String.get 2 label, String.get 3 label with
  | Some a, Some b => Ascii.eqb a "-" && Ascii.eqb b "-"
  | _, _ => false
  end.

Definition special_use : list string :=
  ["arpa"; "invalid"; "local"; "localhost"; "onion"; "test"].

Definition valid_email_domain (d : string) : bool :=
  valid_domain d
  && negb (existsb hyphens_3_4 (split_dots d))
  && match last_char d with Some c => is_alpha c | None => false end
  && negb (existsb (String.eqb (List.last (split_dots d) EmptyString)) special_use).

Definition check_address (email : string) : option string :=
  match split_first "@" email with
  | None => None
  | Some (local, domain) =>
      let domain := lower_string domain in
      if valid_local local && valid_email_domain domain
         && (String.length local + 1 + String.length domain <=? 254)%nat
      then Some (String.append local (String "@" domain))
      else None
  end.

Definition validate (value : string) : option string :=
  if negb (all_chars is_ascii value) then None
  else if (2048 <? String.length value)%nat then None
  else
    let value := match unwrap value with
                 | Some addr => addr
                 | None => value
                 end in
    check_address (strip value).

End EmailStr.

(** A request as it arrives: the login body and the [limit] query text are
    still to be validated. *)
Inductive RawRequest : Type :=
| RawPostLogin (body : string)
| RawGetMe
| RawGetOverview
| RawGetWebsites
| RawGetAlerts (limit : option string)
| RawGetRoot.

(** The validation the framework does for this application: decoding a
    login body into its [email] and [password] strings ([None] when it is
    no JSON object with these two string fields), the validation of
    [EmailStr], and the reading of the [limit] text as an [int]. *)
Record Validation : Type := mkValidation {
  decode_login_body : string -> option (string * string);
  validate_email : string -> option string;
  parse_int : string -> option Z
}.

(** The request the handler gets, or [None] for a request that validation
    rejects.  A request without [limit] needs no validation. *)
Definition validate_request (v : Validation) (raw : RawRequest) : option Request :=
  match raw with
  | RawPostLogin body =>
      match decode_login_body v body with
      | Some (email, password) =>
          match validate_email v email with
          | Some e => Some (PostLogin (LoginRequest.mk e password))
          | None => None
          end
      | None => None
      end
  | RawGetMe => Some GetMe
  | RawGetOverview => Some GetOverview
  | RawGetWebsites => Some GetWebsites
  | RawGetAlerts None => Some (GetAlerts None)
  | RawGetAlerts (Some text) =>
      match parse_int v text with
      | Some l => Some (GetAlerts (Some l))
      | None => None
      end
  | RawGetRoot => Some GetRoot
  end.

(** The application behind the framework's validation. *)
Definition http (v : Validation) (raw : RawRequest) : Globals -> reply Body * Globals :=
  fun g =>
    match validate_request v raw with
    | None => (Reply422, g)
    | Some r =>
        let '(o, g') := app r g in
        (reply_of_outcome o, g')
    end.

(* ================================================================== *)
(** * Properties *)

(* ------------------------------------------------------------------ *)
(** ** Slicing *)

Section Slicing.
Context {A : Type}.
Implicit Types (xs : list A) (stop : Z).

Local Abbreviation len xs := (Z.of_nat (List.length xs)).

Lemma slice_stop_bounds (n stop : Z) :
  0 <= n -> 0 <= slice_stop n stop <= n.
Proof.
  intros Hn. unfold slice_stop.
  destruct (Z.ltb_spec stop 0).
  - destruct (Z.ltb_spec (stop + n) 0); lia.
  - destruct (Z.leb_spec n stop); lia.
Qed.

Lemma slice_stop_nonneg (n stop : Z) :
  0 <= n -> 0 <= stop -> slice_stop n stop = Z.min stop n.
Proof.
  intros Hn Hs. unfold slice_stop.
  destruct (Z.ltb_spec stop 0); [lia|].
  destruct (Z.leb_spec n stop); lia.
Qed.

Lemma slice_stop_negative (n stop : Z) :
  stop < 0 -> slice_stop n stop = Z.max 0 (n + stop).
Proof.
  intros Hs. unfold slice_stop.
  destruct (Z.ltb_spec stop 0); [|lia].
  destruct (Z.ltb_spec (stop + n) 0); lia.
Qed.

Lemma length_slice_upto xs stop :
  len (slice_upto xs stop) = slice_stop (len xs) stop.
Proof.
  unfold slice_upto. rewrite length_firstn.
  pose proof (slice_stop_bounds (len xs) stop ltac:(lia)). lia.
Qed.

Lemma slice_upto_nonneg xs stop :
  0 <= stop -> slice_upto xs stop = firstn (Z.to_nat stop) xs.
Proof.
  intros Hs. unfold slice_upto.
  rewrite slice_stop_nonneg by lia.
  destruct (Z.le_ge_cases stop (len xs)).
  - now rewrite Z.min_l by lia.
  - rewrite Z.min_r by lia. rewrite Nat2Z.id.
    rewrite !firstn_all2; auto; lia.
Qed.

Lemma slice_upto_negative xs stop :
  stop < 0 -> slice_upto xs stop = firstn (Z.to_nat (len xs + stop)) xs.
Proof.
  intros Hs. unfold slice_upto.
  rewrite slice_stop_negative by lia.
  f_equal. lia.
Qed.

Lemma slice_upto_prefix xs stop : prefix_of (slice_upto xs stop) xs.
Proof.
  unfold slice_upto.
  exists (skipn (Z.to_nat (slice_stop (len xs) stop)) xs).
  symmetry. apply firstn_skipn.
Qed.

End Slicing.

(* ------------------------------------------------------------------ *)
(** ** Module import *)

(** Importing the module returns (it raises nothing) after exactly eight
    clock readings, and binds the globals to these values. *)
Lemma module_init_returns (clock : nat -> datetime) :
  module_init clock 0%nat = (Returned (globals clock), 8%nat).
Proof. reflexivity. Qed.

Lemma FAKE_USER_eq (clock : nat -> datetime) :
  FAKE_USER (globals clock) = User.mk "u_123" "mxdev@example.de" "pro".
Proof. reflexivity. Qed.

Lemma FAKE_ALERTS_ids (clock : nat -> datetime) :
  map Alert.id (FAKE_ALERTS (globals clock)) = ["a_1"; "a_2"; "a_3"; "a_4"].
Proof. reflexivity. Qed.

Lemma FAKE_ALERTS_length (clock : nat -> datetime) :
  List.length (FAKE_ALERTS (globals clock)) = 4%nat.
Proof. reflexivity. Qed.

Lemma FAKE_WEBSITES_ids (clock : nat -> datetime) :
  map Website.id (FAKE_WEBSITES (globals clock)) = ["w_1"; "w_2"; "w_3"; "w_4"].
Proof. reflexivity. Qed.

(* ------------------------------------------------------------------ *)
(** ** Handlers leave the globals alone *)

Lemma app_globals (r : Request) (g : Globals) : snd (app r g) = g.
Proof.
  destruct r as [payload| | | |limit|]; cbn; try reflexivity.
  unfold login, bind, get; cbn.
  destruct (negb _); reflexivity.
Qed.

Lemma serve_globals (rs : list Request) (g : Globals) : snd (serve rs g) = g.
Proof.
  revert g. induction rs as [|r rs IH]; intros g; cbn [serve].
  - reflexivity.
  - pose proof (app_globals r g) as Hr.
    destruct (app r g) as [o g']; cbn in Hr; subst g'.
    specialize (IH g). destruct (serve rs g) as [os g'']; cbn in *. exact IH.
Qed.

Lemma serve_length (rs : list Request) (g : Globals) :
  List.length (fst (serve rs g)) = List.length rs.
Proof.
  revert g. induction rs as [|r rs IH]; intros g; cbn [serve].
  - reflexivity.
  - destruct (app r g) as [o g']. specialize (IH g').
    destruct (serve rs g') as [os g'']; cbn in *. now rewrite IH.
Qed.

(** The outcome at position [n] of a run is the outcome of the [n]-th
    request handled on its own. *)
Lemma serve_nth (rs : list Request) (g : Globals) (n : nat) (r : Request) :
  nth_error rs n = Some r ->
  nth_error (fst (serve rs g)) n = Some (fst (app r g)).
Proof.
  revert g n. induction rs as [|r0 rs IH]; intros g n Hn.
  - destruct n; discriminate.
  - cbn [serve].
    pose proof (app_globals r0 g) as H0.
    destruct (app r0 g) as [o g'] eqn:E0; cbn in H0; subst g'.
    specialize (IH g).
    destruct (serve rs g) as [os g'']; cbn [fst] in *.
    destruct n as [|n]; cbn in *.
    + injection Hn as <-. now rewrite E0.
    + now apply IH.
Qed.

(* ------------------------------------------------------------------ *)
(** ** ListAlerts *)

(** C1.  For every limit >= 0, [list_alerts limit] returns (it raises
    nothing, and leaves the globals as they are) the first [limit] entries
    of [FAKE_ALERTS]: exactly [min limit 4] alerts, a prefix of the full
    sequence and of what [list_alerts 4] returns, which is the whole
    sequence [a_1, a_2, a_3, a_4]; limit 0 gives the empty list and every
    limit above 4 gives all four alerts. *)
Theorem list_alerts_nonneg_limit (clock : nat -> datetime) (limit : Z) :
  0 <= limit ->
  let g := globals clock in
  let result := firstn (Z.to_nat limit) (FAKE_ALERTS g) in
  list_alerts limit g = (Returned result, g)
  /\ Z.of_nat (List.length result) = Z.min limit 4
  /\ prefix_of result (FAKE_ALERTS g)
  /\ list_alerts 4 g = (Returned (FAKE_ALERTS g), g)
  /\ map Alert.id (FAKE_ALERTS g) = ["a_1"; "a_2"; "a_3"; "a_4"]
  /\ (limit = 0 -> result = [])
  /\ (4 < limit -> result = FAKE_ALERTS g).
Proof.
  intros Hl g result.
  assert (Hrun : list_alerts limit g = (Returned result, g)).
  { unfold list_alerts, bind, get, ret. subst result.
    now rewrite slice_upto_nonneg. }
  split; [exact Hrun|].
  split.
  { subst result. rewrite length_firstn. subst g.
    rewrite FAKE_ALERTS_length. lia. }
  split.
  { subst result. exists (skipn (Z.to_nat limit) (FAKE_ALERTS g)).
    symmetry. apply firstn_skipn. }
  split; [reflexivity|].
  split; [reflexivity|].
  split.
  - intros ->. reflexivity.
  - intros Hbig. subst result. apply firstn_all2.
    subst g. rewrite FAKE_ALERTS_length. lia.
Qed.

(** C9.  [list_alerts] is total: for every integer limit, negative ones
    included, it returns a list and raises nothing; the list has at most
    four entries and is an initial segment of [FAKE_ALERTS], so its entries
    come in fixture order. *)
Theorem list_alerts_total (clock : nat -> datetime) (limit : Z) :
  let g := globals clock in
  exists result : list Alert.t,
    list_alerts limit g = (Returned result, g)
    /\ (List.length result <= 4)%nat
    /\ result = firstn (List.length result) (FAKE_ALERTS g)
    /\ http_status (fst (app (GetAlerts (Some limit)) g)) = 200.
Proof.
  intros g. exists (slice_upto (FAKE_ALERTS g) limit).
  split; [reflexivity|].
  assert (Hlen : (List.length (slice_upto (FAKE_ALERTS g) limit) <= 4)%nat).
  { pose proof (length_slice_upto (FAKE_ALERTS g) limit) as H.
    pose proof (slice_stop_bounds (Z.of_nat (List.length (FAKE_ALERTS g)))
                  limit ltac:(lia)) as Hb.
    subst g. rewrite FAKE_ALERTS_length in *. lia. }
  split; [exact Hlen|].
  split; [|reflexivity].
  unfold slice_upto at 2. rewrite length_firstn.
  unfold slice_upto. f_equal.
  pose proof (slice_stop_bounds (Z.of_nat (List.length (FAKE_ALERTS g)))
                limit ltac:(lia)). lia.
Qed.

(** C3 (as amended).  For every negative limit, [list_alerts limit] raises
    nothing: it returns [FAKE_ALERTS] with its last [-limit] entries
    dropped, that is the first [max 0 (4 + limit)] entries, an initial
    segment of the sequence, and the empty list once [limit <= -4]. *)
Theorem list_alerts_negative_limit (clock : nat -> datetime) (limit : Z) :
  limit < 0 ->
  let g := globals clock in
  let result := firstn (Z.to_nat (4 + limit)) (FAKE_ALERTS g) in
  list_alerts limit g = (Returned result, g)
  /\ http_status (fst (app (GetAlerts (Some limit)) g)) = 200
  /\ Z.of_nat (List.length result) = Z.max 0 (4 + limit)
  /\ prefix_of result (FAKE_ALERTS g)
  /\ (limit <= -4 -> result = []).
Proof.
  intros Hl g result.
  split.
  { unfold list_alerts, bind, get, ret.
    rewrite slice_upto_negative by exact Hl.
    subst g result. now rewrite FAKE_ALERTS_length. }
  split; [reflexivity|].
  split.
  { subst result. rewrite length_firstn. subst g.
    rewrite FAKE_ALERTS_length. lia. }
  split.
  { subst result. exists (skipn (Z.to_nat (4 + limit)) (FAKE_ALERTS g)).
    symmetry. apply firstn_skipn. }
  intros Hl4. subst result.
  replace (Z.to_nat (4 + limit)) with 0%nat by lia. reflexivity.
Qed.

(* ------------------------------------------------------------------ *)
(** ** Authenticate and GetCurrentUser *)

Lemma login_match (g : Globals) (payload : LoginRequest.t) :
  LoginRequest.email payload = User.email (FAKE_USER g) ->
  login payload g = (Returned (FAKE_USER g), g).
Proof.
  intros He. unfold login, bind, get; cbn.
  rewrite He, String.eqb_refl. reflexivity.
Qed.

Lemma login_mismatch (g : Globals) (payload : LoginRequest.t) :
  LoginRequest.email payload <> User.email (FAKE_USER g) ->
  login payload g = (Raised (mkHTTPException 401 "Ungültige Zugangsdaten"), g).
Proof.
  intros He. unfold login, bind, get; cbn.
  apply String.eqb_neq in He. rewrite He. reflexivity.
Qed.

(** C2 (as amended).  Whatever the validation of [EmailStr] is, the
    login route, given an email and a password, answers 200 with
    [FAKE_USER] exactly when the validation accepts the email and yields
    the configured email [mxdev@example.de]; when it yields another
    address the answer is
    [HTTPException(status_code=401, detail="Ungültige Zugangsdaten")];
    when it rejects the email the answer is 422 and [login] does not run.
    The globals stay as they are, and replacing the password by any other
    one, the empty one included, leaves the answer as it is.  With the
    [EmailStr] validation on ASCII input, the configured email itself is
    answered with 200. *)
Theorem post_login_iff_validated_email
  (validate : string -> option string) (clock : nat -> datetime)
  (email password : string) :
  let g := globals clock in
  let configured := User.email (FAKE_USER g) in
  let unauthorized := mkHTTPException 401 "Ungültige Zugangsdaten" in
  configured = "mxdev@example.de"
  /\ (post_login validate email password g = (Reply200 (FAKE_USER g), g)
      <-> validate email = Some configured)
  /\ ((exists u, fst (post_login validate email password g) = Reply200 u)
      <-> validate email = Some configured)
  /\ (forall e : string,
        validate email = Some e -> e <> configured ->
        post_login validate email password g = (ReplyError unauthorized, g)
        /\ reply_status (fst (post_login validate email password g)) = 401)
  /\ (validate email = None ->
      post_login validate email password g = (Reply422, g))
  /\ snd (post_login validate email password g) = g
  /\ (forall password' : string,
        post_login validate email password' g
        = post_login validate email password g)
  /\ post_login validate email "" g = post_login validate email password g
  /\ post_login EmailStr.validate configured password g
     = (Reply200 (FAKE_USER g), g).
Proof.
  intros g configured unauthorized.
  assert (Hrun : forall pw,
             post_login validate email pw g
             = match validate email with
               | None => (Reply422, g)
               | Some e =>
                   if String.eqb e configured
                   then (Reply200 (FAKE_USER g), g)
                   else (ReplyError unauthorized, g)
               end).
  { intros pw. unfold post_login.
    destruct (validate email) as [e|]; [|reflexivity].
    destruct (String.eqb_spec e configured) as [He|He].
    - rewrite login_match by exact He. reflexivity.
    - rewrite login_mismatch by exact He. reflexivity. }
  split; [reflexivity|].
  split.
  { rewrite Hrun. destruct (validate email) as [e|].
    - destruct (String.eqb_spec e configured) as [He|He].
      + subst e. tauto.
      + split; [discriminate | intros [= H]; contradiction].
    - split; discriminate. }
  split.
  { rewrite Hrun. destruct (validate email) as [e|].
    - destruct (String.eqb_spec e configured) as [He|He].
      + subst e. split; [reflexivity | intros _; now exists (FAKE_USER g)].
      + split; [intros [u Hu]; discriminate Hu | intros [= H]; contradiction].
    - split; [intros [u Hu]; discriminate Hu | discriminate]. }
  split.
  { intros e He Hne. rewrite Hrun, He.
    apply String.eqb_neq in Hne. rewrite Hne. split; reflexivity. }
  split.
  { intros Hnone. now rewrite Hrun, Hnone. }
  split.
  { rewrite Hrun. destruct (validate email) as [e|]; [|reflexivity].
    now destruct (String.eqb e configured). }
  split; [intros pw'; now rewrite !Hrun|].
  split; [now rewrite !Hrun|].
  reflexivity.
Qed.

(** C4.  For every password, [login] with the configured email returns what
    [get_me] returns, and so do the two routes: the one static user
    [u_123] / [mxdev@example.de] / [pro]. *)
Theorem login_correct_email_is_get_me (clock : nat -> datetime) (password : string) :
  let g := globals clock in
  let payload := LoginRequest.mk (User.email (FAKE_USER g)) password in
  login payload g = get_me g
  /\ get_me g = (Returned (User.mk "u_123" "mxdev@example.de" "pro"), g)
  /\ app (PostLogin payload) g = app GetMe g.
Proof.
  intros g payload.
  assert (H : login payload g = get_me g).
  { unfold payload. rewrite login_match by reflexivity. reflexivity. }
  split; [exact H|].
  split; [reflexivity|].
  cbn [app]. unfold bind. rewrite H. reflexivity.
Qed.

(* ------------------------------------------------------------------ *)
(** ** Statelessness *)

(** C8.  Whatever the globals are and whatever requests the process has
    already served, the globals are as they were before, and a request gets
    the outcome it would have got as the first request: every outcome of a
    run is the outcome of its request handled alone.  [login] in
    particular leaves the globals as they are. *)
Theorem app_stateless (g : Globals) (rs : list Request) (r : Request) :
  snd (serve rs g) = g
  /\ snd (app r g) = g
  /\ app r (snd (serve rs g)) = (fst (app r g), g)
  /\ (forall (n : nat) (r' : Request),
        nth_error rs n = Some r' ->
        nth_error (fst (serve rs g)) n = Some (fst (app r' g)))
  /\ (forall payload : LoginRequest.t, snd (login payload g) = g).
Proof.
  split; [apply serve_globals|].
  split; [apply app_globals|].
  split.
  { rewrite serve_globals. rewrite <- (app_globals r g) at 3.
    now destruct (app r g). }
  split.
  { intros n r'. apply serve_nth. }
  intros payload. unfold login, bind, get; cbn.
  destruct (negb _); reflexivity.
Qed.

(* ------------------------------------------------------------------ *)
(** ** GetOverview *)

(** The float stored for the literal [99.96] is a normal binary64 number
    (53-bit significand) within half a unit in the last place of 9996/100:
    it is the literal, correctly rounded. *)
Lemma float_99_96_rounding :
  exists m : positive,
    float_99_96 = S754_finite false m (-46)
    /\ 2 ^ 52 <= Z.pos m < 2 ^ 53
    /\ 2 * Z.abs (100 * Z.pos m - 9996 * 2 ^ 46) <= 100.
Proof.
  exists 7034059667999293%positive.
  split; [reflexivity|]. split; [split|]; vm_compute; congruence.
Qed.

(** C6.  Whatever the globals are, [get_overview] returns (it raises
    nothing) a response whose dictionary has one entry per declared field,
    none of them empty, and whose numeric fields are the configured ones:
    [overall_score] 89, [score_change] 4, [attacks_last_24h] 432,
    [attacks_change_percent] 18, [uptime_percent] the float 99.96 and
    [targets_total] 4; it leaves the globals as they are, so every call
    gives this response. *)
Theorem get_overview_snapshot (g : Globals) :
  exists o : OverviewResponse.t,
    get_overview g = (Returned o, g)
    /\ app GetOverview g = (Returned (BOverview o), g)
    /\ map fst (OverviewResponse.dict o) = OverviewResponse.fields
    /\ (forall k : string, In k OverviewResponse.fields ->
          exists v, dict_get k (OverviewResponse.dict o) = Some v /\ v <> VNone)
    /\ dict_get "overall_score" (OverviewResponse.dict o) = Some (VInt 89)
    /\ dict_get "score_change" (OverviewResponse.dict o) = Some (VInt 4)
    /\ dict_get "attacks_last_24h" (OverviewResponse.dict o) = Some (VInt 432)
    /\ dict_get "attacks_change_percent" (OverviewResponse.dict o) = Some (VInt 18)
    /\ dict_get "uptime_percent" (OverviewResponse.dict o) = Some (VFloat float_99_96)
    /\ dict_get "targets_total" (OverviewResponse.dict o) = Some (VInt 4).
Proof.
  eexists. split; [reflexivity|].
  split; [reflexivity|].
  split; [reflexivity|].
  split.
  { intros k Hk. cbn in Hk.
    repeat (destruct Hk as [<-|Hk];
            [eexists; split; [reflexivity | discriminate]|]).
    contradiction. }
  repeat split; reflexivity.
Qed.

(* ------------------------------------------------------------------ *)
(** ** ListWebsites *)

(** C5.  [list_websites] returns (it raises nothing) the four fixture
    websites, with ids [w_1, w_2, w_3, w_4] in this order; each domain is a
    well-formed host name and each status is one of [online], [reachable],
    [ssl_error]; after any requests the call gives the same list. *)
Theorem list_websites_four (clock : nat -> datetime) (rs : list Request) :
  let g := globals clock in
  exists ws : list Website.t,
    list_websites g = (Returned ws, g)
    /\ List.length ws = 4%nat
    /\ map Website.id ws = ["w_1"; "w_2"; "w_3"; "w_4"]
    /\ Forall (fun w => valid_domain (Website.domain w) = true) ws
    /\ Forall (fun w => In (Website.status w) documented_statuses) ws
    /\ list_websites (snd (serve rs g)) = (Returned ws, g).
Proof.
  intros g. exists (FAKE_WEBSITES g).
  split; [reflexivity|].
  split; [reflexivity|].
  split; [reflexivity|].
  split.
  { subst g. cbn. repeat constructor. }
  split.
  { subst g. cbn. unfold documented_statuses.
    repeat (constructor; [cbn; tauto|]). constructor. }
  rewrite serve_globals. reflexivity.
Qed.

(** A website whose three optional fields are present has no empty entry
    in its dictionary. *)
Lemma website_dict_no_none (w : Website.t) :
  is_present (Website.last_score w) ->
  is_present (Website.last_scan_at w) ->
  is_present (Website.risk_level w) ->
  forall (k : string) (v : value),
    dict_get k (Website.dict w) = Some v -> v <> VNone.
Proof.
  unfold is_present.
  destruct w as [i d s [sc|] [at_|] [rl|]]; cbn; intros H1 H2 H3; try congruence.
  intros k v.
  repeat (destruct (String.eqb k _); [intros [= <-]; discriminate|]).
  discriminate.
Qed.

(** C10.  In each of the four fixture websites [last_score],
    [last_scan_at] and [risk_level] are all present, so no entry that
    [list_websites] returns, at the start or after any requests, has an
    absent optional field, and no dictionary it is turned into has an
    empty entry. *)
Theorem list_websites_optionals_present (clock : nat -> datetime) (rs : list Request) :
  let g := globals clock in
  let all_present (w : Website.t) :=
    is_present (Website.last_score w)
    /\ is_present (Website.last_scan_at w)
    /\ is_present (Website.risk_level w) in
  list_websites (snd (serve rs g)) = (Returned (FAKE_WEBSITES g), g)
  /\ List.length (FAKE_WEBSITES g) = 4%nat
  /\ Forall all_present (FAKE_WEBSITES g)
  /\ Forall (fun w => forall k v, dict_get k (Website.dict w) = Some v -> v <> VNone)
       (FAKE_WEBSITES g).
Proof.
  intros g all_present.
  assert (Hall : Forall all_present (FAKE_WEBSITES g)).
  { subst g all_present. cbn. unfold is_present.
    repeat (constructor; [repeat split; discriminate|]). constructor. }
  split; [rewrite serve_globals; reflexivity|].
  split; [reflexivity|].
  split; [exact Hall|].
  eapply Forall_impl; [|exact Hall].
  intros w (H1 & H2 & H3). now apply website_dict_no_none.
Qed.

(* ------------------------------------------------------------------ *)
(** ** Fixture invariants *)

Lemma globals_unique_ids (clock : nat -> datetime) :
  NoDup [User.id (FAKE_USER (globals clock))]
  /\ NoDup (map Website.id (FAKE_WEBSITES (globals clock)))
  /\ NoDup (map Alert.id (FAKE_ALERTS (globals clock))).
Proof.
  rewrite FAKE_WEBSITES_ids, FAKE_ALERTS_ids.
  repeat split;
    repeat (constructor; [cbn; intuition discriminate|]); constructor.
Qed.

Lemma globals_paired_optional (clock : nat -> datetime) :
  Forall paired_optional (FAKE_WEBSITES (globals clock)).
Proof.
  cbn. unfold paired_optional, is_present.
  repeat (constructor; [cbn; split; discriminate|]). constructor.
Qed.

Lemma globals_newest_first_iff (clock : nat -> datetime) :
  newest_first (FAKE_ALERTS (globals clock)) <-> alert_readings_close clock.
Proof.
  unfold newest_first, alert_readings_close, timedelta. cbn. split.
  - intros H.
    inversion H as [|a1 l1 H1 F1]; subst.
    inversion H1 as [|a2 l2 H2 F2]; subst.
    inversion H2 as [|a3 l3 H3 F3]; subst.
    inversion F1 as [|? ? R12 _]; subst.
    inversion F2 as [|? ? R23 _]; subst.
    inversion F3 as [|? ? R34 _]; subst.
    cbv [Alert.created_at datetime_sub timedelta] in R12, R23, R34. lia.
  - intros (G1 & G2 & G3).
    repeat (constructor;
            [|repeat (constructor;
                      [cbv [Alert.created_at datetime_sub timedelta]; lia|]);
              constructor]).
    constructor.
Qed.

Lemma quick_import_alert_readings (clock : nat -> datetime) :
  quick_import clock -> alert_readings_close clock.
Proof.
  intros Hq. unfold quick_import, alert_readings_close, timedelta in *.
  pose proof (Hq 4%nat 5%nat ltac:(lia) ltac:(lia)).
  pose proof (Hq 5%nat 6%nat ltac:(lia) ltac:(lia)).
  pose proof (Hq 6%nat 7%nat ltac:(lia) ltac:(lia)).
  lia.
Qed.


(** C7 (as amended).  At the start and after any sequence of requests the
    globals are the ones the import built, so what holds of the fixtures
    holds for the life of the process: (1) the user's, the websites' and
    the alerts' ids are pairwise distinct within their collection; (2)
    each website has [last_score] and [risk_level] both present or both
    absent; (3) each alert's [created_at] is strictly later than that of
    every alert after it exactly when the clock readings taken for the
    alerts are close, and so, with (1) and (2), whenever the import is
    quick. *)
Theorem fixtures_invariant_preserved (clock : nat -> datetime) (rs : list Request) :
  let st := snd (serve rs (globals clock)) in
  st = globals clock
  /\ NoDup [User.id (FAKE_USER st)]
  /\ NoDup (map Website.id (FAKE_WEBSITES st))
  /\ NoDup (map Alert.id (FAKE_ALERTS st))
  /\ Forall paired_optional (FAKE_WEBSITES st)
  /\ (newest_first (FAKE_ALERTS st) <-> alert_readings_close clock)
  /\ (quick_import clock -> fixture_invariant st).
Proof.
  cbv zeta. rewrite serve_globals.
  destruct (globals_unique_ids clock) as (Hu & Hw & Ha).
  pose proof (globals_paired_optional clock) as Hp.
  repeat (split; [assumption || reflexivity|]).
  split; [apply globals_newest_first_iff|].
  intros Hq. constructor; try assumption.
  apply globals_newest_first_iff. now apply quick_import_alert_readings.
Qed.

(** C7, the claim as stated fails: in a process stalled for ten minutes
    between building [a_1] and [a_2], [a_1] comes first in display order
    and is three minutes older than [a_2]. *)
Lemma stalled_import_not_newest_first :
  let g := globals stalled_clock in
  map Alert.id (FAKE_ALERTS g) = ["a_1"; "a_2"; "a_3"; "a_4"]
  /\ map Alert.created_at (FAKE_ALERTS g)
     = [1699999700000004; 1699999880000005; 1699998560000006; 1699997000000007]
  /\ ~ newest_first (FAKE_ALERTS g)
  /\ ~ fixture_invariant (snd (serve [GetAlerts None] g)).
Proof.
  cbv zeta.
  assert (Hn : ~ newest_first (FAKE_ALERTS (globals stalled_clock))).
  { intros H. apply globals_newest_first_iff in H.
    destruct H as (H & _). vm_compute in H. discriminate H. }
  split; [reflexivity|].
  split; [reflexivity|].
  split; [exact Hn|].
  rewrite serve_globals. intros [_ _ _ _ H]. exact (Hn H).
Qed.

(* ------------------------------------------------------------------ *)
(** ** Instances *)

(** C7 with a clock that ticks once per reading: the import is quick and
    all the invariants hold after three requests. *)
Lemma fixtures_invariant_ticking :
  quick_import ticking_clock
  /\ fixture_invariant
       (snd (serve [GetAlerts (Some 2); GetWebsites;
                    PostLogin (LoginRequest.mk "wrong@x.com" "x")]
               (globals ticking_clock))).
Proof.
  assert (Hq : quick_import ticking_clock).
  { intros i j Hij Hj. unfold ticking_clock, timedelta. lia. }
  split; [exact Hq|].
  apply (fixtures_invariant_preserved ticking_clock
           [GetAlerts (Some 2); GetWebsites;
            PostLogin (LoginRequest.mk "wrong@x.com" "x")]).
  exact Hq.
Defined.

(** C1 at [limit = 2]: two alerts, [a_1] (tag [CVE]) first. *)
Lemma list_alerts_limit_2 :
  0 <= 2
  /\ exists result : list Alert.t,
       list_alerts 2 (globals ticking_clock)
       = (Returned result, globals ticking_clock)
       /\ map Alert.id result = ["a_1"; "a_2"]
       /\ map Alert.tag result = ["CVE"; "SSH"].
Proof.
  split; [lia|].
  destruct (list_alerts_nonneg_limit ticking_clock 2 ltac:(lia)) as (H & _).
  eexists. split; [exact H|]. split; reflexivity.
Defined.

(** C3 at [limit = -1]: the first three alerts. *)
Lemma list_alerts_limit_minus_1 :
  -1 < 0
  /\ exists result : list Alert.t,
       list_alerts (-1) (globals ticking_clock)
       = (Returned result, globals ticking_clock)
       /\ map Alert.id result = ["a_1"; "a_2"; "a_3"].
Proof.
  split; [lia|].
  destruct (list_alerts_negative_limit ticking_clock (-1) ltac:(lia)) as (H & _).
  eexists. split; [exact H|]. reflexivity.
Defined.

(** C3, the claim as stated fails: [list_alerts (-1)] returns the alerts
    [a_1, a_2, a_3]; this is not a final segment of the alert sequence, it
    leaves out the one entry at the end, [a_4], and starts with the first
    entry. *)
Lemma list_alerts_minus_1_not_from_end :
  let g := globals ticking_clock in
  exists result : list Alert.t,
    list_alerts (-1) g = (Returned result, g)
    /\ map Alert.id result = ["a_1"; "a_2"; "a_3"]
    /\ ~ suffix_of result (FAKE_ALERTS g)
    /\ ~ In "a_4" (map Alert.id result)
    /\ last (map Alert.id (FAKE_ALERTS g)) "" = "a_4".
Proof.
  cbv zeta. eexists. split; [reflexivity|].
  split; [reflexivity|].
  split.
  - intros [front H].
    apply (f_equal (map Alert.id)) in H. rewrite map_app in H.
    remember (map Alert.id front) as ids eqn:Hids. clear Hids.
    vm_compute in H.
    destruct ids as [|x1 [|x2 [|x3 [|x4 [|x5 ids]]]]]; cbn in H;
      discriminate H.
  - split; [|reflexivity].
    intros Hin. vm_compute in Hin.
    repeat (destruct Hin as [Hin|Hin]; [discriminate Hin|]). exact Hin.
Qed.

(** The end-to-end scenarios of the login route. *)
Example login_scenarios :
  fst (app (PostLogin (LoginRequest.mk "mxdev@example.de" "anything"))
         (globals ticking_clock))
  = Returned (BUser (User.mk "u_123" "mxdev@example.de" "pro"))
  /\ http_status
       (fst (app (PostLogin (LoginRequest.mk "wrong@x.com" "x"))
               (globals ticking_clock))) = 401
  /\ fst (app (PostLogin (LoginRequest.mk "MXDEV@example.de" "anything"))
            (globals ticking_clock))
     = Raised (mkHTTPException 401 "Ungültige Zugangsdaten").
Proof. repeat split. Qed.

(** A request without [limit] gets all four alerts (the default is 10). *)
Example alerts_default_limit :
  exists als : list Alert.t,
    fst (app (GetAlerts None) (globals ticking_clock)) = Returned (BAlerts als)
    /\ map Alert.id als = ["a_1"; "a_2"; "a_3"; "a_4"].
Proof. eexists. split; reflexivity. Qed.

(** Slices of a four-element list, at the bounds. *)
Example slice_upto_samples :
  slice_upto [1; 2; 3; 4] 0 = []
  /\ slice_upto [1; 2; 3; 4] 2 = [1; 2]
  /\ slice_upto [1; 2; 3; 4] 4 = [1; 2; 3; 4]
  /\ slice_upto [1; 2; 3; 4] 10 = [1; 2; 3; 4]
  /\ slice_upto [1; 2; 3; 4] (-1) = [1; 2; 3]
  /\ slice_upto [1; 2; 3; 4] (-3) = [1]
  /\ slice_upto [1; 2; 3; 4] (-4) = []
  /\ slice_upto [1; 2; 3; 4] (-9) = [].
Proof. repeat split. Qed.

(** Strings that are not host names. *)
Example valid_domain_samples :
  valid_domain "mxdev.de" = true
  /\ valid_domain "localhost" = false
  /\ valid_domain "shop..de" = false
  /\ valid_domain "-shop.de" = false
  /\ valid_domain "shop-.de" = false
  /\ valid_domain "my shop.de" = false
  /\ valid_domain "" = false.
Proof. repeat split. Qed.

(** The root route. *)
Example root_ok :
  forall g : Globals,
    app GetRoot g = (Returned (BRoot [("status", "ok"); ("service", "mxsec-api")]), g).
Proof. reflexivity. Qed.

(* ================================================================== *)
(** * Further properties *)

(* ------------------------------------------------------------------ *)
(** ** ListAlerts over any fixture list *)

Lemma list_alerts_run (g : Globals) (limit : Z) :
  list_alerts limit g = (Returned (slice_upto (FAKE_ALERTS g) limit), g).
Proof. reflexivity. Qed.

Lemma slice_upto_firstn {A} (xs : list A) (stop : Z) (k : nat) :
  Z.of_nat k = slice_stop (Z.of_nat (List.length xs)) stop ->
  slice_upto xs stop = firstn k xs.
Proof.
  intros Hk. unfold slice_upto. rewrite <- Hk. now rewrite Nat2Z.id.
Qed.

Lemma firstn_prefix_le {A} (xs : list A) (j k : nat) :
  (j <= k)%nat -> prefix_of (firstn j xs) (firstn k xs).
Proof.
  intros Hjk. exists (skipn j (firstn k xs)).
  rewrite <- (firstn_skipn j (firstn k xs)) at 1.
  f_equal. rewrite firstn_firstn. now rewrite Nat.min_l.
Qed.

Lemma slice_stop_mono (n l1 l2 : Z) :
  0 <= n ->
  0 <= l1 <= l2 \/ l1 <= l2 < 0 ->
  slice_stop n l1 <= slice_stop n l2.
Proof.
  intros Hn [H|H].
  - rewrite !slice_stop_nonneg by lia. lia.
  - rewrite !slice_stop_negative by lia. lia.
Qed.

(** X1.  Whatever alerts the fixture list holds and whatever the limit,
    [list_alerts] raises nothing and leaves the globals as they are; it
    returns an initial segment of [FAKE_ALERTS] of length [min limit n]
    when [limit >= 0] and [max 0 (n + limit)] when [limit < 0], for [n]
    alerts. *)
Theorem list_alerts_any_fixture (g : Globals) (limit : Z) :
  exists result : list Alert.t,
    list_alerts limit g = (Returned result, g)
    /\ prefix_of result (FAKE_ALERTS g)
    /\ Z.of_nat (List.length result)
       = (if limit <? 0 then Z.max 0 (alert_count g + limit)
          else Z.min limit (alert_count g)).
Proof.
  exists (slice_upto (FAKE_ALERTS g) limit).
  split; [apply list_alerts_run|].
  split; [apply slice_upto_prefix|].
  rewrite length_slice_upto. unfold alert_count.
  destruct (Z.ltb_spec limit 0).
  - now apply slice_stop_negative.
  - apply slice_stop_nonneg; lia.
Qed.

(** X2.  Among limits of one sign a larger limit only adds alerts at the
    end: for [0 <= l1 <= l2], and for [l1 <= l2 < 0], what
    [list_alerts l1] returns is an initial segment of what
    [list_alerts l2] returns. *)
Theorem list_alerts_monotone (g : Globals) (l1 l2 : Z) :
  0 <= l1 <= l2 \/ l1 <= l2 < 0 ->
  exists r1 r2 : list Alert.t,
    list_alerts l1 g = (Returned r1, g)
    /\ list_alerts l2 g = (Returned r2, g)
    /\ prefix_of r1 r2.
Proof.
  intros Hl.
  exists (slice_upto (FAKE_ALERTS g) l1), (slice_upto (FAKE_ALERTS g) l2).
  split; [apply list_alerts_run|].
  split; [apply list_alerts_run|].
  pose proof (slice_stop_mono (alert_count g) l1 l2 ltac:(unfold alert_count; lia) Hl)
    as Hm.
  pose proof (slice_stop_bounds (alert_count g) l1 ltac:(unfold alert_count; lia)).
  unfold alert_count in *.
  unfold slice_upto. apply firstn_prefix_le. lia.
Qed.

(** Across the sign the order breaks: limit -1 gives three alerts, limit 0
    none. *)
Example list_alerts_sign_change :
  List.length (slice_upto (FAKE_ALERTS (globals ticking_clock)) (-1)) = 3%nat
  /\ List.length (slice_upto (FAKE_ALERTS (globals ticking_clock)) 0) = 0%nat.
Proof. split; reflexivity. Qed.

Lemma nth_error_slice_upto {A} (xs : list A) (stop : Z) (i : nat) (a : A) :
  nth_error (slice_upto xs stop) i = Some a -> nth_error xs i = Some a.
Proof.
  unfold slice_upto. rewrite nth_error_firstn.
  destruct (Nat.ltb i _); [trivial | discriminate].
Qed.

(** X3.  An alert keeps its position whatever the limit: when two calls of
    [list_alerts], with any two limits, both return an entry at position
    [i], it is the same alert, the one at position [i] of
    [FAKE_ALERTS]. *)
Theorem list_alerts_position_stable
  (g : Globals) (l1 l2 : Z) (r1 r2 : list Alert.t) (i : nat) (a b : Alert.t) :
  fst (list_alerts l1 g) = Returned r1 ->
  fst (list_alerts l2 g) = Returned r2 ->
  nth_error r1 i = Some a ->
  nth_error r2 i = Some b ->
  a = b /\ nth_error (FAKE_ALERTS g) i = Some a.
Proof.
  rewrite !list_alerts_run. cbn [fst].
  intros [= <-] [= <-] Ha Hb.
  apply nth_error_slice_upto in Ha, Hb.
  split; [congruence | exact Ha].
Qed.

(** X4.  A request without [limit] is answered with the first ten alerts
    of the fixture list: never more than ten, and the whole list when it
    holds at most ten. *)
Theorem alerts_default_limit_ten (g : Globals) :
  exists als : list Alert.t,
    app (GetAlerts None) g = (Returned (BAlerts als), g)
    /\ als = firstn 10 (FAKE_ALERTS g)
    /\ (List.length als <= 10)%nat
    /\ ((List.length (FAKE_ALERTS g) <= 10)%nat -> als = FAKE_ALERTS g).
Proof.
  exists (slice_upto (FAKE_ALERTS g) limit_default).
  split; [reflexivity|].
  assert (E : slice_upto (FAKE_ALERTS g) limit_default = firstn 10 (FAKE_ALERTS g)).
  { unfold limit_default. now rewrite slice_upto_nonneg by lia. }
  rewrite E.
  split; [reflexivity|].
  split; [apply firstn_le_length|].
  apply firstn_all2.
Qed.

(** X5.  A negative limit [-k] is answered like the limit [n - k] for [n]
    alerts, and like the limit 0 once [k > n]. *)
Theorem list_alerts_negative_as_nonneg (g : Globals) (limit : Z) :
  limit < 0 ->
  list_alerts limit g = list_alerts (Z.max 0 (alert_count g + limit)) g.
Proof.
  intros Hl. rewrite !list_alerts_run. do 2 f_equal.
  unfold slice_upto. do 2 f_equal. fold (alert_count g).
  rewrite slice_stop_negative by exact Hl.
  rewrite slice_stop_nonneg by (unfold alert_count; lia).
  unfold alert_count. lia.
Qed.

Lemma NoDup_firstn {A} (n : nat) (xs : list A) : NoDup xs -> NoDup (firstn n xs).
Proof.
  intros H. rewrite <- (firstn_skipn n xs) in H.
  now apply NoDup_app_remove_r in H.
Qed.

(** X6.  When the alerts of the fixture list have pairwise distinct ids, so
    have the alerts [list_alerts] returns, for every limit: no response
    shows an alert twice. *)
Theorem list_alerts_distinct_ids (g : Globals) (limit : Z) :
  NoDup (map Alert.id (FAKE_ALERTS g)) ->
  exists result : list Alert.t,
    list_alerts limit g = (Returned result, g)
    /\ NoDup (map Alert.id result).
Proof.
  intros Hnd. exists (slice_upto (FAKE_ALERTS g) limit).
  split; [apply list_alerts_run|].
  unfold slice_upto. rewrite <- firstn_map. now apply NoDup_firstn.
Qed.

(* ------------------------------------------------------------------ *)
(** ** Errors of the application *)




(** The login route of [http] is [post_login] on the decoded body. *)
Lemma http_post_login (v : Validation) (body email password : string) (g : Globals) :
  decode_login_body v body = Some (email, password) ->
  http v (RawPostLogin body) g
  = match post_login (validate_email v) email password g with
    | (Reply200 u, g') => (Reply200 (BUser u), g')
    | (ReplyError e, g') => (ReplyError e, g')
    | (Reply422, g') => (Reply422, g')
    end.
Proof.
  intros Hd. unfold http, post_login. cbn [validate_request]. rewrite Hd.
  destruct (validate_email v email) as [e|]; [|reflexivity].
  cbn [app]. unfold bind.
  destruct (login (LoginRequest.mk e password) g) as [[u|x] g']; reflexivity.
Qed.


(* ------------------------------------------------------------------ *)
(** ** Runs of requests *)

Lemma serve_outcomes (rs : list Request) (g : Globals) :
  fst (serve rs g) = map (fun r => fst (app r g)) rs.
Proof.
  induction rs as [|r rs IH]; cbn [serve map].
  - reflexivity.
  - pose proof (app_globals r g) as Hr.
    destruct (app r g) as [o g'] eqn:E; cbn [snd] in Hr; subst g'.
    destruct (serve rs g) as [os g'']; cbn [fst] in *.
    now rewrite IH.
Qed.

(** X8.  Runs compose: serving [rs1] and then [rs2] gives the outcomes of
    serving [rs1] followed by the outcomes of serving [rs2] from the same
    globals, and a run of requests gives each request the outcome it gets
    alone; what came before a request, a failed login included, does not
    change its answer. *)
Theorem serve_app_compose (g : Globals) (rs1 rs2 : list Request) :
  serve (rs1 ++ rs2) g = (fst (serve rs1 g) ++ fst (serve rs2 g), g)
  /\ fst (serve (rs1 ++ rs2) g) = map (fun r => fst (app r g)) (rs1 ++ rs2)
  /\ serve rs2 (snd (serve rs1 g)) = serve rs2 g.
Proof.
  assert (H : fst (serve (rs1 ++ rs2) g)
              = fst (serve rs1 g) ++ fst (serve rs2 g)).
  { rewrite !serve_outcomes. apply map_app. }
  split.
  - pose proof (serve_globals (rs1 ++ rs2) g) as Hg.
    destruct (serve (rs1 ++ rs2) g) as [os g']; cbn [fst snd] in *.
    now subst.
  - split; [apply serve_outcomes|].
    now rewrite serve_globals.
Qed.

(* ------------------------------------------------------------------ *)
(** ** Timestamps built by the import *)

Lemma fixture_timestamps_eq (clock : nat -> datetime) :
  fixture_timestamps (globals clock)
  = [clock 0%nat - timedelta 0 0 20; clock 1%nat - timedelta 0 1 30;
     clock 2%nat - timedelta 0 12 0; clock 3%nat - timedelta 1 0 0;
     clock 4%nat - timedelta 0 0 5; clock 5%nat - timedelta 0 0 12;
     clock 6%nat - timedelta 0 0 34; clock 7%nat - timedelta 0 1 0].
Proof. reflexivity. Qed.

(** X9.  When the clock does not run backwards during the import, every
    timestamp in the fixtures (the websites' [last_scan_at] and the
    alerts' [created_at]) is strictly before the last clock reading of the
    import and at most one day before the first one: nothing is stamped
    in the future, nothing is older than a day at import. *)
Theorem import_timestamps_in_past (clock : nat -> datetime) :
  monotone_import clock ->
  Forall (fun t => clock 0%nat - timedelta 1 0 0 <= t < clock 7%nat)
    (fixture_timestamps (globals clock)).
Proof.
  intros Hm. rewrite fixture_timestamps_eq.
  unfold monotone_import in Hm.
  pose proof (Hm 0%nat 1%nat ltac:(lia) ltac:(lia)).
  pose proof (Hm 1%nat 2%nat ltac:(lia) ltac:(lia)).
  pose proof (Hm 2%nat 3%nat ltac:(lia) ltac:(lia)).
  pose proof (Hm 3%nat 4%nat ltac:(lia) ltac:(lia)).
  pose proof (Hm 4%nat 5%nat ltac:(lia) ltac:(lia)).
  pose proof (Hm 5%nat 6%nat ltac:(lia) ltac:(lia)).
  pose proof (Hm 6%nat 7%nat ltac:(lia) ltac:(lia)).
  unfold timedelta.
  repeat (constructor; [lia|]). constructor.
Qed.

(** X10.  The websites come most recently scanned first exactly when the
    clock readings taken for them are close (gaps below 1 h 10, 10 h 30
    and 12 h), and so whenever the import is quick. *)
Theorem websites_most_recent_scan_first (clock : nat -> datetime) :
  (most_recent_scan_first (FAKE_WEBSITES (globals clock))
   <-> website_readings_close clock)
  /\ (quick_import clock ->
      most_recent_scan_first (FAKE_WEBSITES (globals clock))).
Proof.
  assert (Hiff : most_recent_scan_first (FAKE_WEBSITES (globals clock))
                 <-> website_readings_close clock).
  { unfold most_recent_scan_first, website_readings_close, timedelta. cbn. split.
    - intros H.
      inversion H as [|w1 l1 H1 F1]; subst.
      inversion H1 as [|w2 l2 H2 F2]; subst.
      inversion H2 as [|w3 l3 H3 F3]; subst.
      inversion F1 as [|? ? R12 _]; subst.
      inversion F2 as [|? ? R23 _]; subst.
      inversion F3 as [|? ? R34 _]; subst.
      cbv [scanned_after Website.last_scan_at datetime_sub timedelta]
        in R12, R23, R34. lia.
    - intros (G1 & G2 & G3).
      repeat (constructor;
              [|repeat (constructor;
                        [cbv [scanned_after Website.last_scan_at
                                datetime_sub timedelta]; lia|]);
                constructor]).
      constructor. }
  split; [exact Hiff|].
  intros Hq. apply Hiff.
  unfold quick_import, website_readings_close, timedelta in *.
  pose proof (Hq 0%nat 1%nat ltac:(lia) ltac:(lia)).
  pose proof (Hq 1%nat 2%nat ltac:(lia) ltac:(lia)).
  pose proof (Hq 2%nat 3%nat ltac:(lia) ltac:(lia)).
  lia.
Qed.

(* ------------------------------------------------------------------ *)
(** ** Instances of the further properties *)

(** X2 at the limits 1 and 3. *)
Lemma list_alerts_monotone_1_3 :
  (0 <= 1 <= 3 \/ 1 <= 3 < 0)
  /\ exists r1 r2 : list Alert.t,
       list_alerts 1 (globals ticking_clock) = (Returned r1, globals ticking_clock)
       /\ list_alerts 3 (globals ticking_clock) = (Returned r2, globals ticking_clock)
       /\ prefix_of r1 r2.
Proof.
  assert (H : 0 <= 1 <= 3 \/ 1 <= 3 < 0) by (left; lia).
  split; [exact H|].
  exact (list_alerts_monotone (globals ticking_clock) 1 3 H).
Defined.

(** X3 at position 2 with the limits -1 and 10: both responses hold [a_3]
    there. *)
Lemma list_alerts_position_2 :
  let g := globals ticking_clock in
  let r1 := slice_upto (FAKE_ALERTS g) (-1) in
  let r2 := slice_upto (FAKE_ALERTS g) 10 in
  let a3 := Alert.mk "a_3" "info" "info" "Neue Domain hinzugefügt" "website"
              "demo.mxsec.app" 1699997960000006 "Info" in
  fst (list_alerts (-1) g) = Returned r1
  /\ fst (list_alerts 10 g) = Returned r2
  /\ nth_error r1 2 = Some a3
  /\ nth_error r2 2 = Some a3
  /\ a3 = a3 /\ nth_error (FAKE_ALERTS g) 2 = Some a3.
Proof.
  cbv zeta.
  split; [reflexivity|]. split; [reflexivity|].
  split; [reflexivity|]. split; [reflexivity|].
  eapply (list_alerts_position_stable (globals ticking_clock) (-1) 10);
    reflexivity.
Defined.

(** X5 at [limit = -1]: answered like [limit = 3]. *)
Lemma list_alerts_minus_1_as_3 :
  -1 < 0
  /\ list_alerts (-1) (globals ticking_clock) = list_alerts 3 (globals ticking_clock).
Proof.
  split; [lia|].
  exact (list_alerts_negative_as_nonneg (globals ticking_clock) (-1) ltac:(lia)).
Defined.

(** X6 with the imported fixtures and [limit = 2]. *)
Lemma list_alerts_distinct_ids_2 :
  NoDup (map Alert.id (FAKE_ALERTS (globals ticking_clock)))
  /\ exists result : list Alert.t,
       list_alerts 2 (globals ticking_clock) = (Returned result, globals ticking_clock)
       /\ NoDup (map Alert.id result).
Proof.
  assert (H : NoDup (map Alert.id (FAKE_ALERTS (globals ticking_clock)))).
  { rewrite FAKE_ALERTS_ids.
    repeat (constructor; [cbn; intuition discriminate|]). constructor. }
  split; [exact H|].
  exact (list_alerts_distinct_ids (globals ticking_clock) 2 H).
Defined.

(** X9 with a clock that ticks once per reading. *)
Lemma import_timestamps_ticking :
  monotone_import ticking_clock
  /\ Forall (fun t => ticking_clock 0%nat - timedelta 1 0 0 <= t < ticking_clock 7%nat)
       (fixture_timestamps (globals ticking_clock)).
Proof.
  assert (H : monotone_import ticking_clock).
  { intros i j Hij Hj. unfold ticking_clock. lia. }
  split; [exact H|].
  exact (import_timestamps_in_past ticking_clock H).
Defined.

(** A clock that is two hours ahead when [a_1] is built and is set back
    before [a_2] is stamps [a_1] after the last reading of the import: the
    bound of X9 needs the monotone clock. *)
Example import_clock_set_back :
  let clock (n : nat) :=
    ticking_clock n + (if (n =? 4)%nat then timedelta 0 2 0 else 0) in
  exists t : datetime,
    In t (fixture_timestamps (globals clock)) /\ clock 7%nat < t.
Proof.
  cbv zeta. eexists. split.
  - rewrite fixture_timestamps_eq. do 4 right. left. reflexivity.
  - vm_compute. reflexivity.
Qed.

(* ------------------------------------------------------------------ *)
(** ** Instances of the login route *)

(** C2, the claim as stated fails: the email [mxdev@EXAMPLE.DE] is not the
    configured email, yet the login route answers it with 200 and the
    static user, since the validation of [EmailStr] lower-cases the domain
    before [login] compares. *)
Lemma login_domain_case_accepted :
  let g := globals ticking_clock in
  "mxdev@EXAMPLE.DE" <> User.email (FAKE_USER g)
  /\ EmailStr.validate "mxdev@EXAMPLE.DE" = Some "mxdev@example.de"
  /\ post_login EmailStr.validate "mxdev@EXAMPLE.DE" "anything" g
     = (Reply200 (User.mk "u_123" "mxdev@example.de" "pro"), g)
  /\ reply_status
       (fst (post_login EmailStr.validate "mxdev@EXAMPLE.DE" "anything" g)) = 200.
Proof.
  cbv zeta. split; [discriminate|].
  split; [reflexivity|]. split; reflexivity.
Qed.

(** C2 with blanks around the address and capitals in the domain: the
    validation yields the configured email and the answer is 200. *)
Lemma post_login_blanks_and_case :
  EmailStr.validate "  mxdev@Example.De " = Some "mxdev@example.de"
  /\ post_login EmailStr.validate "  mxdev@Example.De " "anything"
       (globals ticking_clock)
     = (Reply200 (FAKE_USER (globals ticking_clock)), globals ticking_clock).
Proof.
  split; [reflexivity|].
  destruct (post_login_iff_validated_email EmailStr.validate ticking_clock
              "  mxdev@Example.De " "anything") as (_ & [_ H] & _).
  apply H. reflexivity.
Defined.

(** The three answers of the login route: capitals in the local part are
    kept by the validation, so the address differs from the configured one
    and gets 401; an address of another account gets 401; a text that is
    no email address gets 422. *)
Example post_login_answers :
  let g := globals ticking_clock in
  let unauthorized := mkHTTPException 401 "Ungültige Zugangsdaten" in
  post_login EmailStr.validate "mxdev@example.de" "" g
  = (Reply200 (FAKE_USER g), g)
  /\ post_login EmailStr.validate "MXDEV@example.de" "anything" g
     = (ReplyError unauthorized, g)
  /\ post_login EmailStr.validate "wrong@x.com" "x" g
     = (ReplyError unauthorized, g)
  /\ post_login EmailStr.validate "nope" "x" g = (Reply422, g)
  /\ post_login EmailStr.validate "mxdev@example" "x" g = (Reply422, g).
Proof. cbv zeta. repeat split. Qed.

(** What the validation of [EmailStr] does to some inputs. *)
Example EmailStr_validate_samples :
  EmailStr.validate "mxdev@example.de" = Some "mxdev@example.de"
  /\ EmailStr.validate "Max Dev <mxdev@Example.de> " = Some "mxdev@example.de"
  /\ EmailStr.validate "<mxdev@example.de>" = Some "mxdev@example.de"
  /\ EmailStr.validate "a@b <mxdev@example.de>" = None
  /\ EmailStr.validate "mx..dev@example.de" = None
  /\ EmailStr.validate "mx dev@example.de" = None
  /\ EmailStr.validate "mxdev@-example.de" = None
  /\ EmailStr.validate "@example.de" = None
  /\ EmailStr.validate "" = None.
Proof. repeat split. Qed.

(** A validation that reads the login body as [email], a blank, [password]
    and the limit as one decimal digit, to run [http] on: a login with
    capitals in the domain gets 200, a login whose email is no address and
    a limit that is no number get 422. *)
Example http_answers :
  let digit (text : string) : option Z :=
    match text with
    | String c EmptyString =>
        let n := nat_of_ascii c in
        if ((48 <=? n) && (n <=? 57))%nat then Some (Z.of_nat (n - 48)) else None
    | _ => None
    end in
  let v := mkValidation (EmailStr.split_first " ") EmailStr.validate digit in
  let g := globals ticking_clock in
  reply_status (fst (http v (RawPostLogin "mxdev@EXAMPLE.DE anything") g)) = 200
  /\ reply_status (fst (http v (RawPostLogin "wrong@x.com x") g)) = 401
  /\ reply_status (fst (http v (RawPostLogin "nope x") g)) = 422
  /\ reply_status (fst (http v (RawPostLogin "mxdev@example.de") g)) = 422
  /\ reply_status (fst (http v (RawGetAlerts (Some "2")) g)) = 200
  /\ reply_status (fst (http v (RawGetAlerts (Some "abc")) g)) = 422
  /\ reply_status (fst (http v (RawGetAlerts None) g)) = 200.
Proof. cbv zeta. repeat split. Qed.
